(** * A shallow embedding of the fastapi_supabase service

    The program is a FastAPI application with two resources (items, users)
    stored in a Supabase project.  This file embeds:
    - the values that cross the boundary (JSON bodies once parsed by
      [json.loads], Python dicts, the records the store sends back) and
      pydantic's lax validation of the [Item] and [User] models
      ([app/models]);
    - the services ([app/services]) as computations in a small
      exception-and-log monad over an abstract store;
    - the routers ([app/api]), the application object ([main.py]) with the
      framework's routing, its exception handling and its JSON rendering,
      and the not-found middleware ([app/middleware/not_found.py]);
    - the settings ([app/core/config.py]). *)

From Stdlib Require Import String Ascii List ZArith Bool Lia.
From Stdlib Require Import PrimFloat SpecFloat FloatOps.
Import ListNotations.
Set Warnings "-register-all".

Open Scope string_scope.
Open Scope Z_scope.
Open Scope list_scope.

(** ** Python values *)

(** A Python [float]: an IEEE 754 binary64 number (with the infinities
    and NaN), as Rocq's primitive floats.  [json.loads] rounds a JSON
    number with a fraction or an exponent to the nearest one, and reads
    [1e400] as [inf]. *)
Definition flt : Type := PrimFloat.float.

(** The values a JSON body or a store record is made of.  A Python [int]
    is unbounded.  A [str] is kept as its UTF-8 bytes; a lone surrogate
    (which [json.loads] makes of an escaped ["\ud800"]) is kept as the
    three bytes Python's [surrogatepass] codec gives it (0xED, 0xA0-0xBF,
    ...). *)
Inductive pyval : Type :=
| PNone
| PBool (b : bool)
| PInt (z : Z)
| PFloat (f : flt)
| PStr (s : string)
| PList (l : list pyval)
| PDict (d : list (string * pyval)).

(** A Python [dict] with string keys (a generic record); its keys are
    distinct, so the first binding of a key is its only one. *)
Definition record := list (string * pyval).

Fixpoint dict_get (k : string) (r : record) : option pyval :=
  match r with
  | [] => None
  | (k', v) :: r' => if String.eqb k k' then Some v else dict_get k r'
  end.

Definition keys (r : record) : list string := map fst r.

(** ** JSON rendering *)

Definition surrogate_pair_start (c d : ascii) : bool :=
  Nat.eqb (nat_of_ascii c) 237 && (160 <=? nat_of_ascii d)%nat
  && (nat_of_ascii d <=? 191)%nat.

(** The string holds a lone surrogate, which [str.encode("utf-8")] refuses. *)
Fixpoint has_surrogate (s : string) : bool :=
  match s with
  | EmptyString => false
  | String c s' =>
      match s' with
      | String d _ => surrogate_pair_start c d
      | EmptyString => false
      end || has_surrogate s'
  end.

(** Starlette's [JSONResponse.render]:
    [json.dumps(content, ensure_ascii=False, allow_nan=False, ...)
    .encode("utf-8")] succeeds exactly on the values with no infinite or
    NaN float and no lone surrogate in a string or a key. *)
Fixpoint json_encodable (v : pyval) : bool :=
  match v with
  | PFloat f => is_finite f
  | PStr s => negb (has_surrogate s)
  | PList l => forallb json_encodable l
  | PDict d => forallb (fun '(k, x) => negb (has_surrogate k) && json_encodable x) d
  | PNone | PBool _ | PInt _ => true
  end.

(** ** Pydantic's lax-mode validation *)

(** The error types pydantic reports, with their messages. *)
Inductive etype : Type :=
| missing | string_type | int_type | int_parsing | int_parsing_size
| int_from_float | finite_number | float_type | float_parsing
| model_attributes_type | extra_forbidden.

Definition etype_name (t : etype) : string :=
  match t with
  | missing => "missing"
  | string_type => "string_type"
  | int_type => "int_type"
  | int_parsing => "int_parsing"
  | int_parsing_size => "int_parsing_size"
  | int_from_float => "int_from_float"
  | finite_number => "finite_number"
  | float_type => "float_type"
  | float_parsing => "float_parsing"
  | model_attributes_type => "model_attributes_type"
  | extra_forbidden => "extra_forbidden"
  end.

Definition etype_msg (t : etype) : string :=
  match t with
  | missing => "Field required"
  | string_type => "Input should be a valid string"
  | int_type => "Input should be a valid integer"
  | int_parsing => "Input should be a valid integer, unable to parse string as an integer"
  | int_parsing_size => "Unable to parse input string as an integer, exceeded maximum size"
  | int_from_float => "Input should be a valid integer, got a number with a fractional part"
  | finite_number => "Input should be a finite number"
  | float_type => "Input should be a valid number"
  | float_parsing => "Input should be a valid number, unable to parse string as a number"
  | model_attributes_type => "Input should be a valid dictionary or object to extract fields from"
  | extra_forbidden => "Extra inputs are not permitted"
  end.

(** What changes between pydantic versions, and is left open here: how a
    numeric string is read ([str_as_int] and [str_as_float] of
    pydantic-core: blanks, underscores, exponents, [inf], ...), and
    whether a dump in JSON mode turns an infinite or NaN float into
    [None] (by [ser_json_inf_nan]) or keeps it. *)
Record Pydantic := mkPydantic {
  str_as_int : string -> (etype + Z)%type;
  str_as_float : string -> (etype + flt)%type;
  inf_nan_as_null : bool
}.

(** pydantic-core's [float_as_int]: a float is an int when it is finite,
    whole, and strictly between [i64::MIN as f64] and [i64::MAX as f64]
    (that is, -2^63 and 2^63). *)
Definition float_as_int (f : flt) : (etype + Z)%type :=
  match Prim2SF f with
  | S754_zero _ => inr 0
  | S754_infinity _ | S754_nan => inl finite_number
  | S754_finite s m e =>
      if (e <? 0) && negb (Z.pos m mod 2 ^ (- e) =? 0) then inl int_from_float
      else
        let v := if 0 <=? e then Z.pos m * 2 ^ e else Z.pos m / 2 ^ (- e) in
        let z := if s then - v else v in
        if (- 2 ^ 63 <? z) && (z <? 2 ^ 63) then inr z else inl int_parsing_size
  end.

(** Python's [float(n)] on an int: rounded to nearest, ties to even; an
    int too large for a float raises [OverflowError], which pydantic
    reports as [float_type]. *)
Definition int_to_float (z : Z) : (etype + flt)%type :=
  match binary_normalize prec emax z 0 false with
  | S754_infinity _ => inl float_type
  | sf => inr (SF2Prim sf)
  end.

(** The field types of the models: [int], [float] and [str], each read
    from a Python value in lax mode. *)
Definition coerce_int (py : Pydantic) (v : pyval) : (etype + Z)%type :=
  match v with
  | PInt z => inr z
  | PBool b => inr (if b then 1 else 0)
  | PStr s => str_as_int py s
  | PFloat f => float_as_int f
  | _ => inl int_type
  end.

Definition coerce_float (py : Pydantic) (v : pyval) : (etype + flt)%type :=
  match v with
  | PFloat f => inr f
  | PStr s => str_as_float py s
  | PBool b => inr (if b then 1%float else 0%float)
  | PInt z => int_to_float z
  | _ => inl float_type
  end.

Definition coerce_str (v : pyval) : (etype + string)%type :=
  match v with
  | PStr s => inr s
  | _ => inl string_type
  end.

(** ** Field validation

    Pydantic checks every declared field and reports all the failures in
    one [ValidationError], each with its type, its location and the input
    it refused (the whole dict for a missing field); keys that name no
    field are ignored (the models keep the default [extra = "ignore"]). *)
Record verr := mkErr {
  err_type : etype;
  err_loc : list string;
  err_input : pyval
}.

Definition V (A : Type) : Type := (list verr + A)%type.

(** A required field ([name: str], [price: float]). *)
Definition req_field {A} (k : string) (co : pyval -> (etype + A)%type) (r : record) : V A :=
  match dict_get k r with
  | None => inl [mkErr missing [k] (PDict r)]
  | Some v => match co v with inr a => inr a | inl t => inl [mkErr t [k] v] end
  end.

(** A field [x: T | None = None]: absent or [None] gives [None]. *)
Definition opt_field {A} (k : string) (co : pyval -> (etype + A)%type) (r : record)
  : V (option A) :=
  match dict_get k r with
  | None | Some PNone => inr None
  | Some v => match co v with inr a => inr (Some a) | inl t => inl [mkErr t [k] v] end
  end.

Definition vapp {A B} (vf : V (A -> B)) (va : V A) : V B :=
  match vf, va with
  | inr f, inr a => inr (f a)
  | inl e1, inl e2 => inl (e1 ++ e2)
  | inl e, inr _ => inl e
  | inr _, inl e => inl e
  end.

Definition opt_val {A} (f : A -> pyval) (o : option A) : pyval :=
  match o with Some a => f a | None => PNone end.

(** [model.dict(exclude_none=True)] drops the top-level [None] values. *)
Definition exclude_none (r : record) : record :=
  filter (fun kv => match snd kv with PNone => false | _ => true end) r.

(** A dump in JSON mode ([mode="json"]): an infinite or NaN float becomes
    [None] when the pydantic version applies [ser_json_inf_nan] there. *)
Fixpoint json_dump (py : Pydantic) (v : pyval) : pyval :=
  match v with
  | PFloat f => if inf_nan_as_null py && negb (is_finite f) then PNone else v
  | PList l => PList (map (json_dump py) l)
  | PDict d => PDict (map (fun '(k, x) => (k, json_dump py x)) d)
  | PNone | PBool _ | PInt _ | PStr _ => v
  end.

(** ** [app/models/item.py] *)
Module Item.

Record t := mk {
  id : option Z;
  name : string;
  description : option string;
  price : flt;
  tax : option flt
}.

(** [Item] called with a dict as keyword arguments: validation of the dict
    against the model. *)
Definition validate (py : Pydantic) (r : record) : V t :=
  vapp (vapp (vapp (vapp (vapp (inr mk)
    (opt_field "id" (coerce_int py) r))
    (req_field "name" coerce_str r))
    (opt_field "description" coerce_str r))
    (req_field "price" (coerce_float py) r))
    (opt_field "tax" (coerce_float py) r).

(** [item.model_dump()]: every field in declaration order. *)
Definition model_dump (it : t) : record :=
  [("id", opt_val PInt (id it));
   ("name", PStr (name it));
   ("description", opt_val PStr (description it));
   ("price", PFloat (price it));
   ("tax", opt_val PFloat (tax it))].

(** [item.dict(exclude_none=True)]. *)
Definition dict (it : t) : record := exclude_none (model_dump it).

Definition fields : list string := ["id"; "name"; "description"; "price"; "tax"].

End Item.

(** ** [app/models/user.py] *)
Module User.

Record t := mk {
  id : option Z;
  name : string;
  description : option string;
  age : option Z
}.

Definition validate (py : Pydantic) (r : record) : V t :=
  vapp (vapp (vapp (vapp (inr mk)
    (opt_field "id" (coerce_int py) r))
    (req_field "name" coerce_str r))
    (opt_field "description" coerce_str r))
    (opt_field "age" (coerce_int py) r).

Definition model_dump (u : t) : record :=
  [("id", opt_val PInt (id u));
   ("name", PStr (name u));
   ("description", opt_val PStr (description u));
   ("age", opt_val PInt (age u))].

Definition dict (u : t) : record := exclude_none (model_dump u).

Definition fields : list string := ["id"; "name"; "description"; "age"].

End User.

(** ** Exceptions, the store and the request monad *)

(** The exceptions raised while a request is handled. *)
Inductive exn : Type :=
| ValidationError (errs : list verr)         (* pydantic, from [Item(...)] *)
| RequestValidationError (errs : list verr)  (* FastAPI, from the body *)
| HTTPException (status : Z) (detail : string)
| IndexError                                 (* [response.data[0]] on [] *)
| ValueError (msg : string)                  (* the JSON renderer *)
| APIError (msg : string).                   (* raised by the store client *)

(** The Supabase client ([app/db/supabase_client.py]) as the service
    sees it: [table(t).select("*").execute().data] and
    [table(t).insert(payload).execute().data], each of which may raise
    (an error of PostgREST or of the HTTP client) with a message. *)
Record Store := mkStore {
  st_select : string -> (string + list record)%type;
  st_insert : string -> record -> (string + list record)%type
}.

(** The calls made to the store, in order. *)
Inductive call : Type :=
| CallSelect (table : string)
| CallInsert (table : string) (payload : record).

(** A computation that may raise and that logs its store calls. *)
Definition M (A : Type) : Type := list call -> (exn + A)%type * list call.

Definition ret {A} (a : A) : M A := fun l => (inr a, l).
Definition raise {A} (e : exn) : M A := fun l => (inl e, l).
Definition bind {A B} (m : M A) (k : A -> M B) : M B :=
  fun l => match m l with
           | (inl e, l') => (inl e, l')
           | (inr a, l') => k a l'
           end.

Notation "x <- m ;; k" := (bind m (fun x => k))
  (at level 61, m at next level, right associativity).

(** A list comprehension whose body may raise: the first failure aborts it. *)
Fixpoint map_M {A B} (f : A -> M B) (xs : list A) : M (list B) :=
  match xs with
  | [] => ret []
  | x :: xs' => y <- f x ;; ys <- map_M f xs' ;; ret (y :: ys)
  end.

(** Building a model from a dict raises pydantic's [ValidationError]. *)
Definition of_validation {A} (v : V A) : M A :=
  match v with
  | inr a => ret a
  | inl errs => raise (ValidationError errs)
  end.

(** ** HTTP *)

Inductive Body : Type :=
| JsonBody (v : pyval)
| TextBody (s : string)
| EmptyBody
| PageBody (page : string).  (* a page the framework generates itself *)

(** A request: its method, its path and its JSON body once parsed
    ([None] when the request has no body). *)
Record Request := mkRequest {
  method : string;
  path : string;
  body : option pyval
}.

Record Response := mkResponse {
  status_code : Z;
  content : Body;
  media_type : string
}.

Definition HTTP_404_NOT_FOUND : Z := 404.

Definition internal_server_error : Response :=
  mkResponse 500 (TextBody "Internal Server Error") "text/plain".

Definition json_response (status : Z) (v : pyval) : Response :=
  mkResponse status (JsonBody v) "application/json".

(** [JSONResponse(content, status_code=status)]: rendering the content
    raises a [ValueError] when it cannot be encoded. *)
Definition JSONResponse (status : Z) (v : pyval) : M Response :=
  if json_encodable v then ret (json_response status v)
  else raise (ValueError "Out of range float values are not JSON compliant").

(** The response a client receives for a [JSONResponse] built by a
    handler: the 500 of [ServerErrorMiddleware] when rendering raises. *)
Definition sent (status : Z) (v : pyval) : Response :=
  if json_encodable v then json_response status v else internal_server_error.

(** The endpoints of the application, in the order they are registered:
    [FastAPI(...)] adds its documentation routes first, then [main.py]
    includes the item router, the user router and declares [/]. *)
Inductive Endpoint : Type :=
| OpenAPI | Docs | DocsRedirect | Redoc
| ReadItems | CreateItem | ReadUsers | CreateUser | Root.

Definition routes : list (string * list string * Endpoint) :=
  [("/openapi.json", ["GET"; "HEAD"], OpenAPI);
   ("/docs", ["GET"; "HEAD"], Docs);
   ("/docs/oauth2-redirect", ["GET"; "HEAD"], DocsRedirect);
   ("/redoc", ["GET"; "HEAD"], Redoc);
   ("/items/", ["GET"], ReadItems);
   ("/items/", ["POST"], CreateItem);
   ("/users/", ["GET"], ReadUsers);
   ("/user/", ["POST"], CreateUser);
   ("/", ["GET"], Root)].

(** [try: ... except E: ...] for the handlers the framework installs; a
    handler may raise in turn. *)
Definition try_except {A} (m : M A) (h : exn -> option (M A)) : M A :=
  fun l => match m l with
           | (inl e, l') => match h e with Some k => k l' | None => (inl e, l') end
           | r => r
           end.

(** *** Starlette's routing helpers *)

Fixpoint find_full (m p : string) (rs : list (string * list string * Endpoint))
  : option Endpoint :=
  match rs with
  | [] => None
  | (rp, ms, e) :: rs' =>
      if String.eqb rp p && existsb (String.eqb m) ms then Some e
      else find_full m p rs'
  end.

(** Some route's path matches (a full or a partial match). *)
Definition path_matched (p : string) (rs : list (string * list string * Endpoint)) : bool :=
  existsb (fun r => String.eqb (fst (fst r)) p) rs.

Fixpoint drop_slashes (l : list ascii) : list ascii :=
  match l with
  | "/"%char :: l' => drop_slashes l'
  | _ => l
  end.

Definition ends_with_slash (s : string) : bool :=
  match rev (list_ascii_of_string s) with
  | "/"%char :: _ => true
  | _ => false
  end.

(** The path tried by [redirect_slashes]: [path.rstrip("/")] or [path + "/"]. *)
Definition redirect_path (p : string) : string :=
  if ends_with_slash p
  then string_of_list_ascii (rev (drop_slashes (rev (list_ascii_of_string p))))
  else String.append p "/".

(** An entry of [exc.errors()] as [jsonable_encoder] leaves it. *)
Definition verr_json (e : verr) : pyval :=
  PDict [("type", PStr (etype_name (err_type e)));
         ("loc", PList (map PStr (err_loc e)));
         ("msg", PStr (etype_msg (err_type e)));
         ("input", err_input e)].

(** The content FastAPI's handler for [RequestValidationError] answers. *)
Definition validation_report (errs : list verr) : pyval :=
  PDict [("detail", PList (map verr_json errs))].

Definition in_body (e : verr) : verr :=
  mkErr (err_type e) ("body" :: err_loc e) (err_input e).

(** The single body parameter ([item: Item], [user: User]) is the whole
    JSON body.  No body, or a JSON [null], is a missing body; a body that
    is not an object cannot give the model's fields. *)
Definition body_as {A} (validate : record -> V A) (b : option pyval) : V A :=
  match b with
  | None | Some PNone => inl [mkErr missing ["body"] PNone]
  | Some (PDict r) =>
      match validate r with
      | inl errs => inl (map in_body errs)
      | inr a => inr a
      end
  | Some v => inl [mkErr model_attributes_type ["body"] v]
  end.

Section Application.

Variable py : Pydantic.
Variable supabase_client : Store.

Definition execute (res : (string + list record)%type) : (exn + list record)%type :=
  match res with inl msg => inl (APIError msg) | inr data => inr data end.

Definition table_select (table : string) : M (list record) :=
  fun l => (execute (st_select supabase_client table), l ++ [CallSelect table]).

Definition table_insert (table : string) (payload : record) : M (list record) :=
  fun l => (execute (st_insert supabase_client table payload), l ++ [CallInsert table payload]).

(** *** [app/services/item_service.py] *)

Definition get_items_from_supabase : M (list Item.t) :=
  items_data <- table_select "items" ;;
  map_M (fun item_data => of_validation (Item.validate py item_data)) items_data.

Definition create_item_in_supabase (item : Item.t) : M Item.t :=
  let item_dict := Item.dict item in
  data <- table_insert "items" item_dict ;;
  match data with
  | [] => raise IndexError
  | created_item_data :: _ => of_validation (Item.validate py created_item_data)
  end.

(** *** [app/services/user_service.py] *)

Definition get_users_from_supabase : M (list User.t) :=
  items_data <- table_select "users" ;;
  map_M (fun item_data => of_validation (User.validate py item_data)) items_data.

Definition create_user_in_supabase (user : User.t) : M User.t :=
  let user_dict := User.dict user in
  data <- table_insert "users" user_dict ;;
  match data with
  | [] => raise IndexError
  | created_item_data :: _ => of_validation (User.validate py created_item_data)
  end.

(** *** The endpoints, as FastAPI runs them: the body is validated before
    the handler runs; the result is dumped through the [response_model]
    (validating the dump again gives the same models back) in JSON mode,
    and rendered by a [JSONResponse] with the declared [status_code]. *)

Definition handle (e : Endpoint) (req : Request) : M Response :=
  match e with
  | ReadItems =>
      items <- get_items_from_supabase ;;
      JSONResponse 200 (json_dump py (PList (map (fun i => PDict (Item.model_dump i)) items)))
  | CreateItem =>
      match body_as (Item.validate py) (body req) with
      | inl errs => raise (RequestValidationError errs)
      | inr item =>
          created <- create_item_in_supabase item ;;
          JSONResponse 201 (json_dump py (PDict (Item.model_dump created)))
      end
  | ReadUsers =>
      users <- get_users_from_supabase ;;
      JSONResponse 200 (json_dump py (PList (map (fun u => PDict (User.model_dump u)) users)))
  | CreateUser =>
      match body_as (User.validate py) (body req) with
      | inl errs => raise (RequestValidationError errs)
      | inr user =>
          created <- create_user_in_supabase user ;;
          JSONResponse 201 (json_dump py (PDict (User.model_dump created)))
      end
  | Root =>
      JSONResponse 200 (PDict [("message", PStr "Hello from FastAPI with Supabase!")])
  | OpenAPI => ret (mkResponse 200 (PageBody "openapi") "application/json")
  | Docs => ret (mkResponse 200 (PageBody "swagger-ui") "text/html")
  | DocsRedirect => ret (mkResponse 200 (PageBody "oauth2-redirect") "text/html")
  | Redoc => ret (mkResponse 200 (PageBody "redoc") "text/html")
  end.

(** Starlette's [Router]: the first full match is handled; a path matched
    with another method gives 405; otherwise [redirect_slashes] answers
    307 when the path with its trailing slash toggled matches, and the
    default raises [HTTPException(404)]. *)
Definition router (req : Request) : M Response :=
  match find_full (method req) (path req) routes with
  | Some e => handle e req
  | None =>
      if path_matched (path req) routes
      then raise (HTTPException 405 "Method Not Allowed")
      else if negb (String.eqb (path req) "/")
              && path_matched (redirect_path (path req)) routes
      then ret (mkResponse 307 EmptyBody "")
      else raise (HTTPException 404 "Not Found")
  end.

(** Starlette's [ExceptionMiddleware] with FastAPI's handlers for
    [HTTPException] and [RequestValidationError] (the latter answers
    [{"detail": jsonable_encoder(exc.errors())}]); anything else, and an
    error raised by a handler, propagates. *)
Definition exception_middleware (req : Request) : M Response :=
  try_except (router req) (fun e =>
    match e with
    | HTTPException c d => Some (JSONResponse c (PDict [("detail", PStr d)]))
    | RequestValidationError errs => Some (JSONResponse 422 (validation_report errs))
    | _ => None
    end).

(** *** [app/middleware/not_found.py] *)
Definition not_found_middleware (request : Request) (call_next : Request -> M Response)
  : M Response :=
  (* [try: ... except Exception: raise] re-raises: [bind] propagates *)
  response <- call_next request ;;
  if status_code response =? HTTP_404_NOT_FOUND
  then ret (mkResponse HTTP_404_NOT_FOUND (TextBody "Sorry, wrong query") "text/plain")
  else ret response.

(** *** [main.py]: the middleware stack of the application.  Starlette's
    [ServerErrorMiddleware] is outermost and turns an exception into 500;
    the [http] middleware wraps the exception middleware and the router. *)
Definition app (req : Request) : M Response :=
  try_except (not_found_middleware req exception_middleware)
    (fun _ => Some (ret internal_server_error)).

End Application.

(** ** Sample stores *)

(** Empty tables; an insert echoes the inserted row, to which it assigns
    the id [7] when the payload has none. *)
Definition echo_store : Store :=
  mkStore (fun _ => inr [])
    (fun _ payload =>
       match dict_get "id" payload with
       | Some _ => inr [payload]
       | None => inr [("id", PInt 7) :: payload]
       end).

(** Tables holding one row without a price. *)
Definition priceless_row : record := [("id", PInt 1); ("name", PStr "pen")].

Definition priceless_store : Store :=
  mkStore (fun _ => inr [priceless_row]) (fun _ _ => inr []).

(** A request that no route serves. *)
Definition unmatched_request : Request := mkRequest "GET" "/nowhere" None.

(** The framework's own 404 response, and an inner chain giving it. *)
Definition not_found_json : Response :=
  json_response 404 (PDict [("detail", PStr "Not Found")]).

Definition inner_404 : Request -> M Response := fun _ l => (inr not_found_json, l).

(** A draft item body and the item it validates to. *)
Definition pen_body : record := [("name", PStr "pen"); ("price", PFloat 3.5%float)].
Definition pen_draft : Item.t := Item.mk None "pen" None 3.5%float None.

(** Empty tables; an insert reports no created record. *)
Definition empty_insert_store : Store :=
  mkStore (fun _ => inr []) (fun _ _ => inr []).

(** The response of the not-found middleware. *)
Definition sorry_response : Response :=
  mkResponse 404 (TextBody "Sorry, wrong query") "text/plain".

(** A draft user body and the user it validates to. *)
Definition ann_body : record := [("name", PStr "ann"); ("age", PInt 30)].
Definition ann_draft : User.t := User.mk None "ann" None (Some 30).

(** Tables whose store raises on every call. *)
Definition failing_store : Store :=
  mkStore (fun _ => inl "connection refused") (fun _ _ => inl "connection refused").

(** ** A reading of numeric strings, to run examples

    It follows pydantic-core 2.x on ASCII input: the string is stripped of
    blanks; an int is an optional sign and digits, possibly followed by a
    point and zeros; a float is Rust's [f64] syntax (sign, digits with an
    optional point, optional exponent, or [inf], [infinity], [nan] in any
    case), rounded to nearest.  Underscores are not read. *)
Module Lax.

Definition is_blank (c : ascii) : bool :=
  let n := nat_of_ascii c in Nat.eqb n 32 || ((9 <=? n)%nat && (n <=? 13)%nat).

Fixpoint drop_blanks (l : list ascii) : list ascii :=
  match l with
  | c :: l' => if is_blank c then drop_blanks l' else l
  | [] => []
  end.

Definition strip (s : string) : list ascii :=
  rev (drop_blanks (rev (drop_blanks (list_ascii_of_string s)))).

Definition digit (c : ascii) : option Z :=
  let n := nat_of_ascii c in
  if (48 <=? n)%nat && (n <=? 57)%nat then Some (Z.of_nat n - 48) else None.

(** The leading digits of [l], their value and their count, and the rest. *)
Fixpoint digits (acc n : Z) (l : list ascii) : Z * Z * list ascii :=
  match l with
  | c :: l' =>
      match digit c with
      | Some d => digits (acc * 10 + d) (n + 1) l'
      | None => (acc, n, l)
      end
  | [] => (acc, n, [])
  end.

Definition sign (l : list ascii) : bool * list ascii :=
  match l with
  | "-"%char :: l' => (true, l')
  | "+"%char :: l' => (false, l')
  | _ => (false, l)
  end.

Definition int_of (l : list ascii) : option Z :=
  let '(neg, l1) := sign l in
  match digits 0 0 l1 with
  | (v, n, []) => if 0 <? n then Some (if neg then - v else v) else None
  | _ => None
  end.

Fixpoint all_zeros (l : list ascii) : bool :=
  match l with
  | "0"%char :: l' => all_zeros l'
  | [] => true
  | _ => false
  end.

Fixpoint before_point (l : list ascii) : list ascii * option (list ascii) :=
  match l with
  | "."%char :: l' => ([], Some l')
  | c :: l' => let '(a, b) := before_point l' in (c :: a, b)
  | [] => ([], None)
  end.

Definition str_as_int (s : string) : (etype + Z)%type :=
  let l := strip s in
  if (4300 <? length l)%nat then inl int_parsing_size
  else match int_of l with
       | Some z => inr z
       | None =>
           match before_point l with
           | (a, Some b) =>
               if all_zeros b
               then match int_of a with Some z => inr z | None => inl int_parsing end
               else inl int_parsing
           | (_, None) => inl int_parsing
           end
       end.

Definition lower_char (c : ascii) : ascii :=
  let n := nat_of_ascii c in
  if (65 <=? n)%nat && (n <=? 90)%nat then ascii_of_nat (n + 32) else c.

(** [m * 10 ^ e] rounded to the nearest binary64, ties to even. *)
Definition decimal (neg : bool) (m e : Z) : flt :=
  let sf :=
    if m =? 0 then S754_zero false
    else if 400 <=? e + Z.log2 m then S754_infinity false
    else if e + Z.log2 m <=? -1200 then S754_zero false
    else if 0 <=? e then binary_normalize prec emax (m * 10 ^ e) 0 false
    else SFdiv prec emax (S754_finite false (Z.to_pos m) 0)
                         (S754_finite false (Z.to_pos (10 ^ (- e))) 0) in
  SF2Prim (if neg then SFopp sf else sf).

Definition str_as_float (s : string) : (etype + flt)%type :=
  let '(neg, l) := sign (strip s) in
  let word := string_of_list_ascii (map lower_char l) in
  if String.eqb word "inf" || String.eqb word "infinity"
  then inr (if neg then neg_infinity else infinity)
  else if String.eqb word "nan" then inr nan
  else
    let '(a, na, l1) := digits 0 0 l in
    let '(b, nb, l2) :=
      match l1 with
      | "."%char :: l1' =>
          let '(b, nb, l2) := digits 0 0 l1' in (b, nb, l2)
      | _ => (0, 0, l1)
      end in
    let m := a * 10 ^ nb + b in
    if na + nb =? 0 then inl float_parsing
    else
      match l2 with
      | [] => inr (decimal neg m (- nb))
      | c :: l3 =>
          if Ascii.eqb (lower_char c) "e"%char
          then let '(eneg, l4) := sign l3 in
               match digits 0 0 l4 with
               | (x, nx, []) =>
                   if 0 <? nx then inr (decimal neg m ((if eneg then - x else x) - nb))
                   else inl float_parsing
               | _ => inl float_parsing
               end
          else inl float_parsing
      end.

End Lax.

(** Pydantic with this reading of strings, and the dump of the versions
    that keep an infinite float in JSON mode. *)
Definition example_pydantic : Pydantic :=
  mkPydantic Lax.str_as_int Lax.str_as_float false.

(** ** [app/core/config.py] *)
Module Config.

Definition ascii_lower (c : ascii) : ascii :=
  let n := nat_of_ascii c in
  if (65 <=? n)%nat && (n <=? 90)%nat then ascii_of_nat (n + 32) else c.

(** [str.lower()] on ASCII names. *)
Fixpoint lower (s : string) : string :=
  match s with
  | EmptyString => EmptyString
  | String c s' => String (ascii_lower c) (lower s')
  end.

(** [d[k] = v] on a dict: an existing key keeps its place. *)
Fixpoint dict_set (k v : string) (d : list (string * string)) : list (string * string) :=
  match d with
  | [] => [(k, v)]
  | (k', v') :: d' =>
      if String.eqb k k' then (k, v) :: d' else (k', v') :: dict_set k v d'
  end.

Fixpoint lookup (k : string) (d : list (string * string)) : option string :=
  match d with
  | [] => None
  | (k', v) :: d' => if String.eqb k k' then Some v else lookup k d'
  end.

(** A source of settings (the process environment, or the parsed [.env]
    file) read case-insensitively: pydantic-settings lowercases every name
    into a dict, so of two names equal up to case the later value wins. *)
Definition lower_dict (env : list (string * string)) : list (string * string) :=
  fold_left (fun d kv => dict_set (lower (fst kv)) (snd kv) d) env [].

Definition env_get (k : string) (env : list (string * string)) : option string :=
  lookup k (lower_dict env).

(** The process environment comes before the [.env] file. *)
Definition source_value (environ dotenv : list (string * string)) (k : string)
  : option string :=
  match env_get k environ with
  | Some v => Some v
  | None => env_get k dotenv
  end.

Definition field_names : list string := ["supabase_url"; "supabase_anon_key"; "app_name"].

(** [DotEnvSettingsSource] also passes on every [.env] entry with a
    non-empty value whose name is no field's; [BaseSettings] keeps
    [extra = "forbid"], so each of them is an error. *)
Definition dotenv_extras (dotenv : list (string * string)) : list (string * string) :=
  filter (fun kv => negb (existsb (String.eqb (fst kv)) field_names)
                    && negb (String.eqb (snd kv) ""))
    (lower_dict dotenv).

(** The fields a source sets, in declaration order. *)
Definition found (src : list (string * string)) : list (string * string) :=
  flat_map (fun k => match env_get k src with Some v => [(k, v)] | None => [] end)
    field_names.

(** The input of the model: the [.env] values, updated by the environment's. *)
Definition input_data (environ dotenv : list (string * string)) : record :=
  map (fun kv => (fst kv, PStr (snd kv)))
    (fold_left (fun d kv => dict_set (fst kv) (snd kv) d) (found environ)
       (found dotenv ++ dotenv_extras dotenv)).

Record Settings := mk {
  supabase_url : string;
  supabase_anon_key : string;
  app_name : string
}.

Definition required (environ dotenv : list (string * string)) (k : string) : V string :=
  match source_value environ dotenv k with
  | Some v => inr v
  | None => inl [mkErr missing [k] (PDict (input_data environ dotenv))]
  end.

Definition with_default (environ dotenv : list (string * string)) (k d : string)
  : V string :=
  match source_value environ dotenv k with
  | Some v => inr v
  | None => inr d
  end.

Definition extra_errors (dotenv : list (string * string)) : list verr :=
  map (fun kv => mkErr extra_forbidden [fst kv] (PStr (snd kv))) (dotenv_extras dotenv).

(** [settings = Settings()]: the fields' errors, then the extra inputs'. *)
Definition settings (environ dotenv : list (string * string)) : V Settings :=
  match vapp (vapp (vapp (inr mk)
          (required environ dotenv "supabase_url"))
          (required environ dotenv "supabase_anon_key"))
          (with_default environ dotenv "app_name" "My FastAPI Supabase App"),
        extra_errors dotenv with
  | inr s, [] => inr s
  | inr _, es => inl es
  | inl errs, es => inl (errs ++ es)
  end.

End Config.

(** * Properties *)

(** ** Dict lookups and validation *)


(** The errors of a validation without their inputs: their types and
    locations, or the validated value. *)
Definition outcome {A} (v : V A) : (list (etype * list string) + A)%type :=
  match v with
  | inl errs => inl (map (fun e => (err_type e, err_loc e)) errs)
  | inr a => inr a
  end.






Lemma outcome_inr {A} (v : V A) (a : A) : outcome v = inr a <-> v = inr a.
Proof.
  destruct v; simpl; split; intros H; try discriminate; injection H as ->; reflexivity.
Qed.

(** Dumping an item without its [None] fields and validating the dict
    gives the item back. *)
Lemma item_validate_dict (py : Pydantic) (d : Item.t) : Item.validate py (Item.dict d) = inr d.
Proof. destruct d as [[i|] nm [ds|] p [tx|]]; reflexivity. Qed.

Lemma user_validate_dict (py : Pydantic) (u : User.t) : User.validate py (User.dict u) = inr u.
Proof. destruct u as [[i|] nm [ds|] [a|]]; reflexivity. Qed.

(** The same dict with a store-assigned id in front. *)
Lemma item_validate_echo (py : Pydantic) (d : Item.t) (n : Z) :
  Item.id d = None ->
  Item.validate py (("id", PInt n) :: Item.dict d) =
  inr (Item.mk (Some n) (Item.name d) (Item.description d) (Item.price d) (Item.tax d)).
Proof.
  destruct d as [[i|] nm [ds|] p [tx|]]; simpl; intros H;
    try discriminate; reflexivity.
Qed.


(** The id of a validated item is the body's [id] read as an int. *)
Lemma item_validate_id (py : Pydantic) (r : record) (d : Item.t) :
  Item.validate py r = inr d ->
  ((dict_get "id" r = None \/ dict_get "id" r = Some PNone) /\ Item.id d = None) \/
  (exists v z, dict_get "id" r = Some v /\ v <> PNone /\ coerce_int py v = inr z /\
               Item.id d = Some z).
Proof.
  intros H. unfold Item.validate in H.
  destruct (opt_field "id" (coerce_int py) r) as [e|i] eqn:Ei;
  destruct (req_field "name" coerce_str r);
  destruct (opt_field "description" coerce_str r);
  destruct (req_field "price" (coerce_float py) r);
  destruct (opt_field "tax" (coerce_float py) r); simpl in H; try discriminate.
  injection H as <-. simpl. unfold opt_field in Ei.
  destruct (dict_get "id" r) as [v|]; [|left; split; [left|]; congruence].
  destruct v as [|b0|z0|f0|s0|l0|d0].
  { left. split; [right; reflexivity | congruence]. }
  all: destruct (coerce_int py _) as [t|z] eqn:Ec; [discriminate|].
  all: injection Ei as <-; right; eexists _, z.
  all: split; [reflexivity | split; [discriminate | split; [exact Ec | reflexivity]]].
Qed.

(** *** The inputs the errors of a validation echo *)













(** ** The application on [POST /items/] *)

Lemma app_post_items (py : Pydantic) (st : Store) (b : option pyval) :
  app py st (mkRequest "POST" "/items/" b) [] =
  match body_as (Item.validate py) b with
  | inl errs => (inr (sent 422 (validation_report errs)), [])
  | inr d =>
      (match st_insert st "items" (Item.dict d) with
       | inr (r :: _) =>
           match Item.validate py r with
           | inr c => inr (sent 201 (json_dump py (PDict (Item.model_dump c))))
           | inl _ => inr internal_server_error
           end
       | _ => inr internal_server_error
       end, [CallInsert "items" (Item.dict d)])
  end.
Proof.
  unfold app, try_except, not_found_middleware, exception_middleware, bind, router.
  cbn -[json_dump Item.model_dump json_encodable validation_report body_as Item.validate Item.dict].
  destruct (body_as (Item.validate py) b) as [errs|d].
  - cbn -[json_encodable validation_report]. unfold JSONResponse, sent.
    destruct (json_encodable (validation_report errs)); reflexivity.
  - unfold create_item_in_supabase, table_insert, bind, execute.
    cbn -[json_dump Item.model_dump json_encodable Item.validate Item.dict].
    destruct (st_insert st "items" (Item.dict d)) as [msg|[|r rs]];
      cbn -[json_dump Item.model_dump json_encodable Item.validate Item.dict]; try reflexivity.
    destruct (Item.validate py r) as [errs|c];
      cbn -[json_dump Item.model_dump json_encodable]; [reflexivity|].
    unfold JSONResponse, sent.
    destruct (json_encodable (json_dump py (PDict (Item.model_dump c)))); reflexivity.
Qed.

Lemma app_post_item_singular (py : Pydantic) (st : Store) (b : option pyval) :
  app py st (mkRequest "POST" "/item/" b) [] = (inr sorry_response, []).
Proof. reflexivity. Qed.

(** ** The not-found middleware *)

(** C1: the not-found middleware turns exactly the inner chain's 404
    responses into the plain-text 404 "Sorry, wrong query" and passes every
    other response through unchanged. *)
Theorem not_found_middleware_404_iff (req : Request)
  (call_next : Request -> M Response) (l l' : list call) (r : Response) :
  call_next req l = (inr r, l') ->
  (status_code r = 404 <->
   not_found_middleware req call_next l =
   (inr (mkResponse 404 (TextBody "Sorry, wrong query") "text/plain"), l')) /\
  (status_code r <> 404 -> not_found_middleware req call_next l = (inr r, l')).
Proof.
  intros H. unfold not_found_middleware, bind. rewrite H. unfold HTTP_404_NOT_FOUND.
  split.
  - split; intros Hs.
    + rewrite Hs. reflexivity.
    + destruct (Z.eqb_spec (status_code r) 404) as [E|E]; [exact E|].
      unfold ret in Hs. injection Hs as Hr. rewrite Hr in E. simpl in E.
      contradiction.
  - intros Hs. destruct (Z.eqb_spec (status_code r) 404) as [E|E];
      [contradiction|reflexivity].
Qed.

Lemma not_found_middleware_404_iff_witness :
  inner_404 unmatched_request [] = (inr not_found_json, []) /\
  ((status_code not_found_json = 404 <->
    not_found_middleware unmatched_request inner_404 [] =
    (inr (mkResponse 404 (TextBody "Sorry, wrong query") "text/plain"), [])) /\
   (status_code not_found_json <> 404 ->
    not_found_middleware unmatched_request inner_404 [] = (inr not_found_json, []))).
Proof.
  split; [reflexivity|].
  apply (not_found_middleware_404_iff unmatched_request inner_404 [] [] not_found_json).
  reflexivity.
Defined.

(** ** Creating an item *)



(** C3, as stated, fails: no route has method POST and path [/item/]. *)
Lemma post_item_singular_not_routed :
  find_full "POST" "/item/" routes = None /\
  app example_pydantic echo_store (mkRequest "POST" "/item/" (Some (PDict pen_body))) [] =
  (inr (mkResponse 404 (TextBody "Sorry, wrong query") "text/plain"), []).
Proof. split; reflexivity. Qed.

(** C3 (amended): the item-creation route is POST [/items/]: a valid draft
    is inserted and answered with 201 and the item read back from the
    store's record (a 500 when that item cannot be rendered as JSON); a
    POST to [/item/] gets the 404 "Sorry, wrong query". *)
Theorem post_items_is_create_route (py : Pydantic) (st : Store) (b : option pyval)
  (d c : Item.t) (r : record) (rest : list record) :
  body_as (Item.validate py) b = inr d ->
  st_insert st "items" (Item.dict d) = inr (r :: rest) ->
  Item.validate py r = inr c ->
  find_full "POST" "/items/" routes = Some CreateItem /\
  app py st (mkRequest "POST" "/items/" b) [] =
  (inr (sent 201 (json_dump py (PDict (Item.model_dump c)))),
   [CallInsert "items" (Item.dict d)]) /\
  (forall b', app py st (mkRequest "POST" "/item/" b') [] =
              (inr (mkResponse 404 (TextBody "Sorry, wrong query") "text/plain"), [])).
Proof.
  intros Hb Hi Hc. split; [reflexivity|]. split.
  - rewrite app_post_items, Hb, Hi, Hc. reflexivity.
  - intros b'. apply app_post_item_singular.
Qed.

Lemma post_items_is_create_route_witness :
  body_as (Item.validate example_pydantic) (Some (PDict pen_body)) = inr pen_draft /\
  st_insert echo_store "items" (Item.dict pen_draft) =
    inr [("id", PInt 7) :: Item.dict pen_draft] /\
  Item.validate example_pydantic (("id", PInt 7) :: Item.dict pen_draft) =
    inr (Item.mk (Some 7) "pen" None 3.5%float None) /\
  (find_full "POST" "/items/" routes = Some CreateItem /\
   app example_pydantic echo_store (mkRequest "POST" "/items/" (Some (PDict pen_body))) [] =
   (inr (sent 201 (json_dump example_pydantic (PDict (Item.model_dump
      (Item.mk (Some 7) "pen" None 3.5%float None))))),
    [CallInsert "items" (Item.dict pen_draft)]) /\
   (forall b', app example_pydantic echo_store (mkRequest "POST" "/item/" b') [] =
               (inr (mkResponse 404 (TextBody "Sorry, wrong query") "text/plain"), []))).
Proof.
  split; [reflexivity|]. split; [reflexivity|]. split; [reflexivity|].
  apply (post_items_is_create_route example_pydantic echo_store (Some (PDict pen_body)) pen_draft
           (Item.mk (Some 7) "pen" None 3.5%float None)
           (("id", PInt 7) :: Item.dict pen_draft) []); reflexivity.
Defined.

(** C4: when the store echoes the inserted record with a store-assigned
    id, [create] returns the draft with that id and every other field
    unchanged. *)
Theorem create_item_returns_draft_with_id (py : Pydantic) (st : Store) (d : Item.t) (n : Z)
  (l : list call) :
  Item.id d = None ->
  st_insert st "items" (Item.dict d) = inr [("id", PInt n) :: Item.dict d] ->
  fst (create_item_in_supabase py st d l) =
  inr (Item.mk (Some n) (Item.name d) (Item.description d) (Item.price d) (Item.tax d)).
Proof.
  intros Hid Hi. unfold create_item_in_supabase, bind, table_insert, execute.
  rewrite Hi. simpl. rewrite item_validate_echo by exact Hid. reflexivity.
Qed.

Lemma create_item_returns_draft_with_id_witness :
  Item.id pen_draft = None /\
  st_insert echo_store "items" (Item.dict pen_draft) =
    inr [("id", PInt 7) :: Item.dict pen_draft] /\
  fst (create_item_in_supabase example_pydantic echo_store pen_draft []) =
  inr (Item.mk (Some 7) (Item.name pen_draft) (Item.description pen_draft)
         (Item.price pen_draft) (Item.tax pen_draft)).
Proof.
  split; [reflexivity|]. split; [reflexivity|].
  apply (create_item_returns_draft_with_id example_pydantic echo_store pen_draft 7 []);
    reflexivity.
Defined.

(** C5: an insert that reports no created record makes [create] fail with
    an index error, which the application answers with 500. *)
Theorem empty_insert_is_server_error (py : Pydantic) (st : Store) (b : option pyval)
  (d : Item.t) :
  body_as (Item.validate py) b = inr d ->
  st_insert st "items" (Item.dict d) = inr [] ->
  fst (create_item_in_supabase py st d []) = inl IndexError /\
  app py st (mkRequest "POST" "/items/" b) [] =
  (inr internal_server_error, [CallInsert "items" (Item.dict d)]) /\
  (forall u, st_insert st "users" (User.dict u) = inr [] ->
             fst (create_user_in_supabase py st u []) = inl IndexError).
Proof.
  intros Hb Hi. split; [|split].
  - unfold create_item_in_supabase, bind, table_insert, execute. rewrite Hi. reflexivity.
  - rewrite app_post_items, Hb, Hi. reflexivity.
  - intros u Hu. unfold create_user_in_supabase, bind, table_insert, execute.
    rewrite Hu. reflexivity.
Qed.

Lemma empty_insert_is_server_error_witness :
  body_as (Item.validate example_pydantic) (Some (PDict pen_body)) = inr pen_draft /\
  st_insert empty_insert_store "items" (Item.dict pen_draft) = inr [] /\
  (fst (create_item_in_supabase example_pydantic empty_insert_store pen_draft []) =
     inl IndexError /\
   app example_pydantic empty_insert_store
     (mkRequest "POST" "/items/" (Some (PDict pen_body))) [] =
   (inr internal_server_error, [CallInsert "items" (Item.dict pen_draft)]) /\
   (forall u, st_insert empty_insert_store "users" (User.dict u) = inr [] ->
      fst (create_user_in_supabase example_pydantic empty_insert_store u []) = inl IndexError)).
Proof.
  split; [reflexivity|]. split; [reflexivity|].
  apply (empty_insert_is_server_error example_pydantic empty_insert_store
           (Some (PDict pen_body)) pen_draft); reflexivity.
Defined.

(** ** Reading a table *)

Section MapValidation.

Context {A B : Type} (f : A -> V B).

Lemma map_M_validation_log (xs : list A) (l : list call) :
  snd (map_M (fun x => of_validation (f x)) xs l) = l.
Proof.
  induction xs as [|x xs IH]; simpl; [reflexivity|].
  unfold bind. destruct (f x) as [e|y]; simpl; [reflexivity|].
  destruct (map_M (fun x => of_validation (f x)) xs l) as [[e|ys] l'] eqn:E;
    simpl in *; exact IH.
Qed.

Lemma map_M_validation_ok (xs : list A) (l : list call) (ys : list B) :
  fst (map_M (fun x => of_validation (f x)) xs l) = inr ys <->
  Forall2 (fun x y => f x = inr y) xs ys.
Proof.
  revert ys. induction xs as [|x xs IH]; intros ys; simpl.
  - split; intros H.
    + injection H as <-. constructor.
    + inversion H; reflexivity.
  - unfold bind. destruct (f x) as [e|y] eqn:Ef; simpl.
    + split; intros H; [discriminate|]. inversion H; subst. congruence.
    + destruct (map_M (fun x => of_validation (f x)) xs l) as [[e|zs] l'] eqn:E;
        simpl; simpl in IH.
      * split; intros H; [discriminate|]. inversion H as [|? y' ? ys' Hy Hys]; subst.
        apply IH in Hys. discriminate.
      * split; intros H.
        -- injection H as <-. constructor; [exact Ef|]. apply IH. reflexivity.
        -- inversion H as [|? y' ? ys' Hy Hys]; subst.
           rewrite Ef in Hy. injection Hy as <-.
           apply IH in Hys. injection Hys as <-. reflexivity.
Qed.

Lemma map_M_validation_err (xs : list A) (l : list call) (x : A) (errs : list verr) :
  In x xs -> f x = inl errs ->
  exists errs', fst (map_M (fun x => of_validation (f x)) xs l) = inl (ValidationError errs').
Proof.
  intros Hin Hx. induction xs as [|a xs IH]; simpl in *; [contradiction|].
  unfold bind. destruct (f a) as [e|y] eqn:Ef; simpl; [eauto|].
  destruct Hin as [<-|Hin]; [congruence|].
  destruct (IH Hin) as [e' He].
  destruct (map_M (fun x => of_validation (f x)) xs l) as [[e|zs] l'];
    simpl in *; [eauto | discriminate].
Qed.

Lemma map_M_validation_raises (xs : list A) (l : list call) (e : exn) :
  fst (map_M (fun x => of_validation (f x)) xs l) = inl e -> exists errs, e = ValidationError errs.
Proof.
  induction xs as [|x xs IH]; simpl; [discriminate|].
  unfold bind. destruct (f x) as [es|y]; simpl; [intros H; injection H as <-; eauto|].
  destruct (map_M (fun x => of_validation (f x)) xs l) as [[e'|zs] l'];
    simpl in *; [exact IH | discriminate].
Qed.

End MapValidation.

Lemma get_items_select (py : Pydantic) (st : Store) (data : list record) (l : list call) :
  st_select st "items" = inr data ->
  get_items_from_supabase py st l =
  map_M (fun r => of_validation (Item.validate py r)) data (l ++ [CallSelect "items"]).
Proof. intros H. unfold get_items_from_supabase, bind, table_select, execute. rewrite H. reflexivity. Qed.

Lemma get_users_select (py : Pydantic) (st : Store) (data : list record) (l : list call) :
  st_select st "users" = inr data ->
  get_users_from_supabase py st l =
  map_M (fun r => of_validation (User.validate py r)) data (l ++ [CallSelect "users"]).
Proof. intros H. unfold get_users_from_supabase, bind, table_select, execute. rewrite H. reflexivity. Qed.

(** Reading a table raises only what the store or pydantic raises. *)
Lemma get_items_raises (py : Pydantic) (st : Store) (l : list call) (e : exn) :
  fst (get_items_from_supabase py st l) = inl e ->
  (exists errs, e = ValidationError errs) \/ (exists msg, e = APIError msg).
Proof.
  unfold get_items_from_supabase, bind, table_select, execute.
  destruct (st_select st "items") as [msg|data]; simpl.
  - intros H. injection H as <-. eauto.
  - intros H. left. exact (map_M_validation_raises _ data _ e H).
Qed.

Lemma get_users_raises (py : Pydantic) (st : Store) (l : list call) (e : exn) :
  fst (get_users_from_supabase py st l) = inl e ->
  (exists errs, e = ValidationError errs) \/ (exists msg, e = APIError msg).
Proof.
  unfold get_users_from_supabase, bind, table_select, execute.
  destruct (st_select st "users") as [msg|data]; simpl.
  - intros H. injection H as <-. eauto.
  - intros H. left. exact (map_M_validation_raises _ data _ e H).
Qed.

Lemma app_get_items (py : Pydantic) (st : Store) (b : option pyval) :
  app py st (mkRequest "GET" "/items/" b) [] =
  match get_items_from_supabase py st [] with
  | (inr items, l) =>
      (inr (sent 200 (json_dump py (PList (map (fun i => PDict (Item.model_dump i)) items)))), l)
  | (inl _, l) => (inr internal_server_error, l)
  end.
Proof.
  unfold app, not_found_middleware, exception_middleware, router.
  cbn -[get_items_from_supabase json_dump Item.model_dump json_encodable].
  unfold try_except, bind.
  destruct (get_items_from_supabase py st []) as [[e|items] l] eqn:E.
  - assert (He : fst (get_items_from_supabase py st []) = inl e) by (rewrite E; reflexivity).
    destruct (get_items_raises py st [] e He) as [[errs ->]|[msg ->]]; reflexivity.
  - unfold JSONResponse, sent.
    destruct (json_encodable (json_dump py (PList (map (fun i => PDict (Item.model_dump i)) items))));
      reflexivity.
Qed.

Lemma json_dump_users (py : Pydantic) (us : list User.t) :
  json_dump py (PList (map (fun u => PDict (User.model_dump u)) us)) =
  PList (map (fun u => PDict (User.model_dump u)) us).
Proof.
  induction us as [|[[i|] nm [ds|] [a|]] us IH]; [reflexivity| | | | | | | |];
    simpl in IH |- *; injection IH as IH; rewrite IH; reflexivity.
Qed.

Lemma app_get_users (py : Pydantic) (st : Store) (b : option pyval) :
  app py st (mkRequest "GET" "/users/" b) [] =
  match get_users_from_supabase py st [] with
  | (inr users, l) =>
      (inr (sent 200 (PList (map (fun u => PDict (User.model_dump u)) users))), l)
  | (inl _, l) => (inr internal_server_error, l)
  end.
Proof.
  unfold app, not_found_middleware, exception_middleware, router.
  cbn -[get_users_from_supabase json_dump User.model_dump json_encodable].
  unfold try_except, bind.
  destruct (get_users_from_supabase py st []) as [[e|users] l] eqn:E.
  - assert (He : fst (get_users_from_supabase py st []) = inl e) by (rewrite E; reflexivity).
    destruct (get_users_raises py st [] e He) as [[errs ->]|[msg ->]]; reflexivity.
  - rewrite json_dump_users. unfold JSONResponse, sent.
    destruct (json_encodable (PList (map (fun u => PDict (User.model_dump u)) users)));
      reflexivity.
Qed.

(** C6: on an empty items table, [GET /items/] answers 200 with an empty
    JSON list. *)
Theorem get_items_empty_table (py : Pydantic) (st : Store) (b : option pyval) :
  st_select st "items" = inr [] ->
  app py st (mkRequest "GET" "/items/" b) [] =
  (inr (json_response 200 (PList [])), [CallSelect "items"]).
Proof. intros H. rewrite app_get_items, (get_items_select py st [] [] H). reflexivity. Qed.

Lemma get_items_empty_table_witness :
  st_select echo_store "items" = inr [] /\
  app example_pydantic echo_store (mkRequest "GET" "/items/" None) [] =
  (inr (json_response 200 (PList [])), [CallSelect "items"]).
Proof.
  split; [reflexivity|]. apply (get_items_empty_table example_pydantic echo_store None).
  reflexivity.
Defined.

(** C7: [list()] converts every record, in order, and returns them all; a
    record that fails validation makes it raise a [ValidationError] with
    no partial result, and [GET /items/] then answers 500. *)
Theorem list_all_or_nothing (py : Pydantic) (st : Store) (data udata : list record) :
  st_select st "items" = inr data ->
  st_select st "users" = inr udata ->
  (forall items, fst (get_items_from_supabase py st []) = inr items <->
                 Forall2 (fun r it => Item.validate py r = inr it) data items) /\
  (forall r errs, In r data -> Item.validate py r = inl errs ->
     (exists errs', fst (get_items_from_supabase py st []) = inl (ValidationError errs')) /\
     app py st (mkRequest "GET" "/items/" None) [] =
     (inr internal_server_error, [CallSelect "items"])) /\
  (forall users, fst (get_users_from_supabase py st []) = inr users <->
                 Forall2 (fun r u => User.validate py r = inr u) udata users) /\
  (forall r errs, In r udata -> User.validate py r = inl errs ->
     exists errs', fst (get_users_from_supabase py st []) = inl (ValidationError errs')).
Proof.
  intros Hi Hu. split; [|split; [|split]].
  - intros items. rewrite (get_items_select py st data [] Hi). apply map_M_validation_ok.
  - intros r errs Hin Hr.
    destruct (map_M_validation_err (Item.validate py) data [CallSelect "items"] r errs Hin Hr)
      as [e' He].
    pose proof (map_M_validation_log (Item.validate py) data [CallSelect "items"]) as Hl.
    split.
    + exists e'. rewrite (get_items_select py st data [] Hi). exact He.
    + rewrite app_get_items, (get_items_select py st data [] Hi). simpl List.app.
      destruct (map_M (fun r => of_validation (Item.validate py r)) data [CallSelect "items"])
        as [res l'] eqn:E.
      simpl in He, Hl. subst. reflexivity.
  - intros users. rewrite (get_users_select py st udata [] Hu). apply map_M_validation_ok.
  - intros r errs Hin Hr. rewrite (get_users_select py st udata [] Hu).
    exact (map_M_validation_err (User.validate py) udata _ r errs Hin Hr).
Qed.

Lemma list_all_or_nothing_witness :
  st_select priceless_store "items" = inr [priceless_row] /\
  st_select priceless_store "users" = inr [priceless_row] /\
  ((forall items, fst (get_items_from_supabase example_pydantic priceless_store []) = inr items <->
      Forall2 (fun r it => Item.validate example_pydantic r = inr it) [priceless_row] items) /\
   (forall r errs, In r [priceless_row] -> Item.validate example_pydantic r = inl errs ->
      (exists errs', fst (get_items_from_supabase example_pydantic priceless_store []) =
                     inl (ValidationError errs')) /\
      app example_pydantic priceless_store (mkRequest "GET" "/items/" None) [] =
      (inr internal_server_error, [CallSelect "items"])) /\
   (forall users, fst (get_users_from_supabase example_pydantic priceless_store []) = inr users <->
      Forall2 (fun r u => User.validate example_pydantic r = inr u) [priceless_row] users) /\
   (forall r errs, In r [priceless_row] -> User.validate example_pydantic r = inl errs ->
      exists errs', fst (get_users_from_supabase example_pydantic priceless_store []) =
                    inl (ValidationError errs'))).
Proof.
  split; [reflexivity|]. split; [reflexivity|].
  apply (list_all_or_nothing example_pydantic priceless_store [priceless_row] [priceless_row]);
    reflexivity.
Defined.

(** ** The insert payload *)

(** C8, as stated, fails: a body carrying an id is accepted and the id is
    sent to the store. *)
Lemma post_items_client_id_reaches_store :
  app example_pydantic echo_store
    (mkRequest "POST" "/items/" (Some (PDict (("id", PInt 5) :: pen_body)))) [] =
  (inr (json_response 201 (PDict (Item.model_dump
          (Item.mk (Some 5) "pen" None 3.5%float None)))),
   [CallInsert "items" (("id", PInt 5) :: pen_body)]).
Proof. reflexivity. Qed.

(** C8 (amended): the draft is the whole [Item] model, whose [id] is
    optional: when the body's [id] is absent or null the draft has none;
    otherwise it is read as an int in pydantic's lax mode, kept on the
    draft and sent in the insert payload. *)
Theorem post_items_payload_keeps_body_id (py : Pydantic) (st : Store) (r : record)
  (d : Item.t) :
  Item.validate py r = inr d ->
  snd (app py st (mkRequest "POST" "/items/" (Some (PDict r))) []) =
    [CallInsert "items" (Item.dict d)] /\
  dict_get "id" (Item.dict d) = option_map PInt (Item.id d) /\
  (((dict_get "id" r = None \/ dict_get "id" r = Some PNone) /\ Item.id d = None) \/
   (exists v z, dict_get "id" r = Some v /\ v <> PNone /\ coerce_int py v = inr z /\
                Item.id d = Some z)).
Proof.
  intros H. split; [|split].
  - rewrite app_post_items. simpl. rewrite H. reflexivity.
  - destruct d as [[i|] nm [ds|] p [tx|]]; reflexivity.
  - exact (item_validate_id py r d H).
Qed.

Lemma post_items_payload_keeps_body_id_witness :
  Item.validate example_pydantic (("id", PInt 5) :: pen_body) =
    inr (Item.mk (Some 5) "pen" None 3.5%float None) /\
  (snd (app example_pydantic echo_store
          (mkRequest "POST" "/items/" (Some (PDict (("id", PInt 5) :: pen_body)))) []) =
     [CallInsert "items" (Item.dict (Item.mk (Some 5) "pen" None 3.5%float None))] /\
   dict_get "id" (Item.dict (Item.mk (Some 5) "pen" None 3.5%float None)) =
     option_map PInt (Item.id (Item.mk (Some 5) "pen" None 3.5%float None)) /\
   (((dict_get "id" (("id", PInt 5) :: pen_body) = None \/
      dict_get "id" (("id", PInt 5) :: pen_body) = Some PNone) /\
     Item.id (Item.mk (Some 5) "pen" None 3.5%float None) = None) \/
    (exists v z, dict_get "id" (("id", PInt 5) :: pen_body) = Some v /\ v <> PNone /\
                 coerce_int example_pydantic v = inr z /\
                 Item.id (Item.mk (Some 5) "pen" None 3.5%float None) = Some z))).
Proof.
  split; [reflexivity|].
  apply (post_items_payload_keeps_body_id example_pydantic echo_store
           (("id", PInt 5) :: pen_body)).
  reflexivity.
Defined.

(** C9: the payload sent to the store holds exactly the fields set on the
    draft, each once, and no [None]. *)
Theorem dict_holds_exactly_set_fields :
  (forall d : Item.t,
     dict_get "id" (Item.dict d) = option_map PInt (Item.id d) /\
     dict_get "name" (Item.dict d) = Some (PStr (Item.name d)) /\
     dict_get "description" (Item.dict d) = option_map PStr (Item.description d) /\
     dict_get "price" (Item.dict d) = Some (PFloat (Item.price d)) /\
     dict_get "tax" (Item.dict d) = option_map PFloat (Item.tax d) /\
     (forall k v, In (k, v) (Item.dict d) -> In k Item.fields /\ v <> PNone) /\
     NoDup (keys (Item.dict d))) /\
  (forall u : User.t,
     dict_get "id" (User.dict u) = option_map PInt (User.id u) /\
     dict_get "name" (User.dict u) = Some (PStr (User.name u)) /\
     dict_get "description" (User.dict u) = option_map PStr (User.description u) /\
     dict_get "age" (User.dict u) = option_map PInt (User.age u) /\
     (forall k v, In (k, v) (User.dict u) -> In k User.fields /\ v <> PNone) /\
     NoDup (keys (User.dict u))).
Proof.
  split.
  - intros [[i|] nm [ds|] p [tx|]];
      (split; [reflexivity|]); (split; [reflexivity|]); (split; [reflexivity|]);
      (split; [reflexivity|]); (split; [reflexivity|]); (split;
      [ intros k v Hin; simpl in Hin;
        repeat (destruct Hin as [Hin|Hin]; [injection Hin as <- <-; simpl; intuition discriminate|]);
        contradiction
      | simpl; repeat (apply NoDup_cons; [simpl; intuition discriminate|]); apply NoDup_nil ]).
  - intros [[i|] nm [ds|] [a|]];
      (split; [reflexivity|]); (split; [reflexivity|]); (split; [reflexivity|]);
      (split; [reflexivity|]); (split;
      [ intros k v Hin; simpl in Hin;
        repeat (destruct Hin as [Hin|Hin]; [injection Hin as <- <-; simpl; intuition discriminate|]);
        contradiction
      | simpl; repeat (apply NoDup_cons; [simpl; intuition discriminate|]); apply NoDup_nil ]).
Qed.

(** C10: on an item whose fields are all set, validating its dict without
    [None] values gives the item back. *)
Theorem item_dict_roundtrip (py : Pydantic) (d : Item.t) (i : Z) (ds : string) (tx : flt) :
  Item.id d = Some i -> Item.description d = Some ds -> Item.tax d = Some tx ->
  Item.validate py (Item.dict d) = inr d.
Proof. intros _ _ _. apply item_validate_dict. Qed.

Lemma item_dict_roundtrip_witness :
  Item.id (Item.mk (Some 3) "pen" (Some "blue") 3.5%float (Some 0.5%float)) = Some 3 /\
  Item.description (Item.mk (Some 3) "pen" (Some "blue") 3.5%float (Some 0.5%float)) =
    Some "blue" /\
  Item.tax (Item.mk (Some 3) "pen" (Some "blue") 3.5%float (Some 0.5%float)) = Some 0.5%float /\
  Item.validate example_pydantic
    (Item.dict (Item.mk (Some 3) "pen" (Some "blue") 3.5%float (Some 0.5%float))) =
    inr (Item.mk (Some 3) "pen" (Some "blue") 3.5%float (Some 0.5%float)).
Proof.
  split; [reflexivity|]. split; [reflexivity|]. split; [reflexivity|].
  apply (item_dict_roundtrip example_pydantic _ 3 "blue" 0.5%float); reflexivity.
Defined.

(** ** Float inputs

    A JSON number with a fraction or an exponent reaches the model as a
    Python float.  Such an id is accepted when it is whole and within the
    64-bit range, and an infinite one ([1e400]) is refused; the 422 report
    of that refusal echoes the infinite float, which the renderer cannot
    write, so the client receives a 500, still with no store call. *)
Lemma coerce_int_whole_float (py : Pydantic) :
  coerce_int py (PFloat 5%float) = inr 5 /\
  coerce_int py (PFloat 5.5%float) = inl int_from_float /\
  coerce_int py (PFloat 9223372036854775808%float) = inl int_parsing_size /\
  coerce_int py (PFloat infinity) = inl finite_number.
Proof. repeat split; reflexivity. Qed.

Lemma post_items_infinite_id (py : Pydantic) (st : Store) :
  app py st (mkRequest "POST" "/items/" (Some (PDict (("id", PFloat infinity) :: pen_body)))) [] =
  (inr internal_server_error, []).
Proof. rewrite app_post_items. reflexivity. Qed.

(** * Further properties of the code *)

(** ** The user endpoints *)

Lemma user_validate_echo (py : Pydantic) (u : User.t) (n : Z) :
  User.id u = None ->
  User.validate py (("id", PInt n) :: User.dict u) =
  inr (User.mk (Some n) (User.name u) (User.description u) (User.age u)).
Proof.
  destruct u as [[i|] nm [ds|] [a|]]; simpl; intros H; try discriminate; reflexivity.
Qed.

Lemma json_dump_user (py : Pydantic) (u : User.t) :
  json_dump py (PDict (User.model_dump u)) = PDict (User.model_dump u).
Proof. destruct u as [[i|] nm [ds|] [a|]]; reflexivity. Qed.


Lemma app_post_user (py : Pydantic) (st : Store) (b : option pyval) :
  app py st (mkRequest "POST" "/user/" b) [] =
  match body_as (User.validate py) b with
  | inl errs => (inr (sent 422 (validation_report errs)), [])
  | inr u =>
      (match st_insert st "users" (User.dict u) with
       | inr (r :: _) =>
           match User.validate py r with
           | inr c => inr (sent 201 (PDict (User.model_dump c)))
           | inl _ => inr internal_server_error
           end
       | _ => inr internal_server_error
       end, [CallInsert "users" (User.dict u)])
  end.
Proof.
  unfold app, try_except, not_found_middleware, exception_middleware, bind, router.
  cbn -[json_dump User.model_dump json_encodable validation_report body_as User.validate User.dict].
  destruct (body_as (User.validate py) b) as [errs|u].
  - cbn -[json_encodable validation_report]. unfold JSONResponse, sent.
    destruct (json_encodable (validation_report errs)); reflexivity.
  - unfold create_user_in_supabase, table_insert, bind, execute.
    cbn -[json_dump User.model_dump json_encodable User.validate User.dict].
    destruct (st_insert st "users" (User.dict u)) as [msg|[|r rs]];
      cbn -[json_dump User.model_dump json_encodable User.validate User.dict]; try reflexivity.
    destruct (User.validate py r) as [errs|c];
      cbn -[json_dump User.model_dump json_encodable]; [reflexivity|].
    rewrite json_dump_user. unfold JSONResponse, sent.
    destruct (json_encodable (PDict (User.model_dump c))); reflexivity.
Qed.

(** [GET /] answers the fixed greeting whatever the store and the body,
    and calls no store. *)
Theorem root_greeting (py : Pydantic) (st : Store) (b : option pyval) :
  app py st (mkRequest "GET" "/" b) [] =
  (inr (json_response 200 (PDict [("message", PStr "Hello from FastAPI with Supabase!")])), []).
Proof. reflexivity. Qed.


(** When the store echoes the inserted user with an assigned id,
    [create_user_in_supabase] returns the draft with that id. *)
Theorem create_user_returns_draft_with_id (py : Pydantic) (st : Store) (u : User.t) (n : Z)
  (l : list call) :
  User.id u = None ->
  st_insert st "users" (User.dict u) = inr [("id", PInt n) :: User.dict u] ->
  fst (create_user_in_supabase py st u l) =
  inr (User.mk (Some n) (User.name u) (User.description u) (User.age u)).
Proof.
  intros Hid Hi. unfold create_user_in_supabase, bind, table_insert, execute.
  rewrite Hi. simpl. rewrite user_validate_echo by exact Hid. reflexivity.
Qed.

Lemma create_user_returns_draft_with_id_witness :
  User.id ann_draft = None /\
  st_insert echo_store "users" (User.dict ann_draft) =
    inr [("id", PInt 7) :: User.dict ann_draft] /\
  fst (create_user_in_supabase example_pydantic echo_store ann_draft []) =
  inr (User.mk (Some 7) (User.name ann_draft) (User.description ann_draft) (User.age ann_draft)).
Proof.
  split; [reflexivity|]. split; [reflexivity|].
  apply (create_user_returns_draft_with_id example_pydantic echo_store ann_draft 7 []);
    reflexivity.
Defined.

(** [POST /user/] with a valid body inserts exactly the draft's set fields
    once, and answers 201 with the user read back from the store's first
    record (a 500 when that user cannot be rendered as JSON); an empty
    insert result, a store error or a returned record that does not
    validate gives 500. *)
Theorem post_user_outcome (py : Pydantic) (st : Store) (b : option pyval) (u : User.t) :
  body_as (User.validate py) b = inr u ->
  snd (app py st (mkRequest "POST" "/user/" b) []) = [CallInsert "users" (User.dict u)] /\
  (forall r rest c, st_insert st "users" (User.dict u) = inr (r :: rest) ->
     User.validate py r = inr c ->
     fst (app py st (mkRequest "POST" "/user/" b) []) =
     inr (sent 201 (PDict (User.model_dump c)))) /\
  ((st_insert st "users" (User.dict u) = inr [] \/
    (exists msg, st_insert st "users" (User.dict u) = inl msg) \/
    (exists r rest errs, st_insert st "users" (User.dict u) = inr (r :: rest) /\
                         User.validate py r = inl errs)) ->
   fst (app py st (mkRequest "POST" "/user/" b) []) = inr internal_server_error).
Proof.
  intros Hb. rewrite app_post_user, Hb. split; [reflexivity|]. split.
  - intros r rest c Hi Hc. rewrite Hi, Hc. reflexivity.
  - intros [Hi | [[msg Hi] | [r [rest [errs [Hi Hr]]]]]]; rewrite Hi; simpl;
      [reflexivity | reflexivity | rewrite Hr; reflexivity].
Qed.

Lemma post_user_outcome_witness :
  body_as (User.validate example_pydantic) (Some (PDict ann_body)) = inr ann_draft /\
  (snd (app example_pydantic echo_store (mkRequest "POST" "/user/" (Some (PDict ann_body))) []) =
     [CallInsert "users" (User.dict ann_draft)] /\
   (forall r rest c, st_insert echo_store "users" (User.dict ann_draft) = inr (r :: rest) ->
      User.validate example_pydantic r = inr c ->
      fst (app example_pydantic echo_store
             (mkRequest "POST" "/user/" (Some (PDict ann_body))) []) =
      inr (sent 201 (PDict (User.model_dump c)))) /\
   ((st_insert echo_store "users" (User.dict ann_draft) = inr [] \/
     (exists msg, st_insert echo_store "users" (User.dict ann_draft) = inl msg) \/
     (exists r rest errs, st_insert echo_store "users" (User.dict ann_draft) = inr (r :: rest) /\
                          User.validate example_pydantic r = inl errs)) ->
    fst (app example_pydantic echo_store
           (mkRequest "POST" "/user/" (Some (PDict ann_body))) []) =
    inr internal_server_error)).
Proof.
  split; [reflexivity|].
  apply (post_user_outcome example_pydantic echo_store (Some (PDict ann_body)) ann_draft).
  reflexivity.
Defined.

(** [GET /users/] answers 200 with every row, in order, when all rows
    validate (a 500 when they cannot be rendered as JSON), and 500 when
    one does not; the store is read once. *)
Theorem get_users_outcome (py : Pydantic) (st : Store) (b : option pyval) (data : list record) :
  st_select st "users" = inr data ->
  (forall users, Forall2 (fun r u => User.validate py r = inr u) data users ->
     app py st (mkRequest "GET" "/users/" b) [] =
     (inr (sent 200 (PList (map (fun u => PDict (User.model_dump u)) users))),
      [CallSelect "users"])) /\
  (forall r errs, In r data -> User.validate py r = inl errs ->
     app py st (mkRequest "GET" "/users/" b) [] =
     (inr internal_server_error, [CallSelect "users"])).
Proof.
  intros Hs. rewrite app_get_users, (get_users_select py st data [] Hs). simpl List.app.
  pose proof (map_M_validation_log (User.validate py) data [CallSelect "users"]) as Hl.
  split.
  - intros users Hf.
    apply (map_M_validation_ok (User.validate py) data [CallSelect "users"]) in Hf.
    destruct (map_M (fun r => of_validation (User.validate py r)) data [CallSelect "users"])
      as [res l'] eqn:E. simpl in Hf, Hl. subst. reflexivity.
  - intros r errs Hin Hr.
    destruct (map_M_validation_err (User.validate py) data [CallSelect "users"] r errs Hin Hr)
      as [e' He].
    destruct (map_M (fun r => of_validation (User.validate py r)) data [CallSelect "users"])
      as [res l'] eqn:E. simpl in He, Hl. subst. reflexivity.
Qed.

Lemma get_users_outcome_witness :
  st_select priceless_store "users" = inr [priceless_row] /\
  ((forall users, Forall2 (fun r u => User.validate example_pydantic r = inr u)
                     [priceless_row] users ->
      app example_pydantic priceless_store (mkRequest "GET" "/users/" None) [] =
      (inr (sent 200 (PList (map (fun u => PDict (User.model_dump u)) users))),
       [CallSelect "users"])) /\
   (forall r errs, In r [priceless_row] -> User.validate example_pydantic r = inl errs ->
      app example_pydantic priceless_store (mkRequest "GET" "/users/" None) [] =
      (inr internal_server_error, [CallSelect "users"]))).
Proof.
  split; [reflexivity|].
  apply (get_users_outcome example_pydantic priceless_store None [priceless_row]).
  reflexivity.
Defined.

(** An error raised by the store is not handled: each of the four
    endpoints then answers 500, after its one store call. *)
Theorem store_error_is_server_error (py : Pydantic) (st : Store) (b : option pyval) :
  (forall msg, st_select st "items" = inl msg ->
     app py st (mkRequest "GET" "/items/" b) [] =
     (inr internal_server_error, [CallSelect "items"])) /\
  (forall msg, st_select st "users" = inl msg ->
     app py st (mkRequest "GET" "/users/" b) [] =
     (inr internal_server_error, [CallSelect "users"])) /\
  (forall msg d, body_as (Item.validate py) b = inr d ->
     st_insert st "items" (Item.dict d) = inl msg ->
     app py st (mkRequest "POST" "/items/" b) [] =
     (inr internal_server_error, [CallInsert "items" (Item.dict d)])) /\
  (forall msg u, body_as (User.validate py) b = inr u ->
     st_insert st "users" (User.dict u) = inl msg ->
     app py st (mkRequest "POST" "/user/" b) [] =
     (inr internal_server_error, [CallInsert "users" (User.dict u)])).
Proof.
  split; [|split; [|split]].
  - intros msg H. rewrite app_get_items.
    unfold get_items_from_supabase, bind, table_select, execute. rewrite H. reflexivity.
  - intros msg H. rewrite app_get_users.
    unfold get_users_from_supabase, bind, table_select, execute. rewrite H. reflexivity.
  - intros msg d Hb Hi. rewrite app_post_items, Hb, Hi. reflexivity.
  - intros msg u Hb Hi. rewrite app_post_user, Hb, Hi. reflexivity.
Qed.

(** ** The application as a whole *)

(** Every request gets a response; the only 404 response is the
    plain-text "Sorry, wrong query"; an exception escaping the inner stack
    is re-raised by the not-found middleware and answered with 500. *)
Theorem app_response_invariant (py : Pydantic) (st : Store) (req : Request) (l : list call) :
  (exists r l', app py st req l = (inr r, l') /\
                (status_code r = 404 -> r = sorry_response)) /\
  (forall e l', exception_middleware py st req l = (inl e, l') ->
                app py st req l = (inr internal_server_error, l')).
Proof.
  unfold app, try_except, not_found_middleware, bind. split.
  - destruct (exception_middleware py st req l) as [[e|r] l'].
    + exists internal_server_error, l'. split; [reflexivity|]. discriminate.
    + unfold HTTP_404_NOT_FOUND. destruct (Z.eqb_spec (status_code r) 404) as [E|E].
      * exists sorry_response, l'. split; reflexivity.
      * exists r, l'. split; [reflexivity|]. intros H; contradiction.
  - intros e l' H. rewrite H. reflexivity.
Qed.

(** ** Routing *)

Lemma find_full_path (m p : string) (rs : list (string * list string * Endpoint)) (e : Endpoint) :
  find_full m p rs = Some e -> path_matched p rs = true.
Proof.
  induction rs as [|[[rp ms] e'] rs IH]; simpl; [discriminate|].
  destruct (String.eqb rp p) eqn:E; simpl.
  - intros _. reflexivity.
  - exact IH.
Qed.

(** A path some route has, asked with a method none of its routes takes,
    is answered 405 (not rewritten by the middleware), with no store call. *)
Theorem wrong_method_is_405 (py : Pydantic) (st : Store) (m p : string) (b : option pyval) :
  find_full m p routes = None -> path_matched p routes = true ->
  app py st (mkRequest m p b) [] =
  (inr (json_response 405 (PDict [("detail", PStr "Method Not Allowed")])), []).
Proof.
  intros Hf Hp.
  unfold app, try_except, not_found_middleware, bind, exception_middleware, router.
  cbn [method path body]. rewrite Hf, Hp. reflexivity.
Qed.

Lemma wrong_method_is_405_witness :
  find_full "PUT" "/items/" routes = None /\ path_matched "/items/" routes = true /\
  app example_pydantic echo_store (mkRequest "PUT" "/items/" None) [] =
  (inr (json_response 405 (PDict [("detail", PStr "Method Not Allowed")])), []).
Proof.
  split; [reflexivity|]. split; [reflexivity|].
  apply (wrong_method_is_405 example_pydantic echo_store "PUT" "/items/" None); reflexivity.
Defined.

(** A path no route has, which does not become a route's path by adding
    or stripping trailing slashes, gets the "Sorry, wrong query" 404 for
    every method, with no store call. *)
Theorem unmatched_path_is_sorry (py : Pydantic) (st : Store) (m p : string) (b : option pyval) :
  path_matched p routes = false -> path_matched (redirect_path p) routes = false ->
  app py st (mkRequest m p b) [] = (inr sorry_response, []).
Proof.
  intros Hp Hr.
  destruct (find_full m p routes) eqn:Hf.
  { apply find_full_path in Hf. congruence. }
  unfold app, try_except, not_found_middleware, bind, exception_middleware, router.
  cbn [method path body]. rewrite Hf, Hp, Hr. rewrite andb_false_r. reflexivity.
Qed.

Lemma unmatched_path_is_sorry_witness :
  path_matched "/nowhere" routes = false /\ path_matched (redirect_path "/nowhere") routes = false /\
  app example_pydantic echo_store (mkRequest "DELETE" "/nowhere" None) [] =
  (inr sorry_response, []).
Proof.
  split; [reflexivity|]. split; [reflexivity|].
  apply (unmatched_path_is_sorry example_pydantic echo_store "DELETE" "/nowhere" None);
    reflexivity.
Defined.

(** A path no route has but whose trailing-slash variant is a route's path
    is redirected with 307, whatever the method, with no store call. *)
Theorem trailing_slash_redirect (py : Pydantic) (st : Store) (m p : string) (b : option pyval) :
  path_matched p routes = false -> p <> "/" -> path_matched (redirect_path p) routes = true ->
  app py st (mkRequest m p b) [] = (inr (mkResponse 307 EmptyBody ""), []).
Proof.
  intros Hp Hslash Hr.
  destruct (find_full m p routes) eqn:Hf.
  { apply find_full_path in Hf. congruence. }
  unfold app, try_except, not_found_middleware, bind, exception_middleware, router.
  cbn [method path body]. rewrite Hf, Hp, Hr.
  destruct (String.eqb_spec p "/") as [E|E]; [contradiction|]. reflexivity.
Qed.

Lemma trailing_slash_redirect_witness :
  path_matched "/items" routes = false /\ "/items" <> "/" /\
  path_matched (redirect_path "/items") routes = true /\
  app example_pydantic echo_store (mkRequest "POST" "/items" None) [] =
  (inr (mkResponse 307 EmptyBody ""), []).
Proof.
  split; [reflexivity|]. split; [discriminate|]. split; [reflexivity|].
  apply (trailing_slash_redirect example_pydantic echo_store "POST" "/items" None);
    [reflexivity | discriminate | reflexivity].
Defined.

(** ** Round trip of every model *)

(** For every item and every user, validating its dict without [None]
    values gives it back: the optional fields left out are read as [None]. *)
Theorem dict_validate_roundtrip (py : Pydantic) :
  (forall d : Item.t, Item.validate py (Item.dict d) = inr d) /\
  (forall u : User.t, User.validate py (User.dict u) = inr u).
Proof. split; [exact (item_validate_dict py) | exact (user_validate_dict py)]. Qed.

(** ** [app/core/config.py] *)








(** A [.env] file that also sets a variable the settings do not declare
    makes [Settings()] fail, even when the required fields are set. *)
Lemma settings_dotenv_extra_fails :
  Config.settings [] [("SUPABASE_URL", "https://x"); ("SUPABASE_ANON_KEY", "anon"); ("DEBUG", "1")] =
  inl [mkErr extra_forbidden ["debug"] (PStr "1")].
Proof. reflexivity. Qed.

(** ** Store calls per request *)

Lemma get_items_log (py : Pydantic) (st : Store) :
  snd (get_items_from_supabase py st []) = [CallSelect "items"].
Proof.
  unfold get_items_from_supabase, bind, table_select, execute.
  destruct (st_select st "items"); [reflexivity|]. apply map_M_validation_log.
Qed.

Lemma get_users_log (py : Pydantic) (st : Store) :
  snd (get_users_from_supabase py st []) = [CallSelect "users"].
Proof.
  unfold get_users_from_supabase, bind, table_select, execute.
  destruct (st_select st "users"); [reflexivity|]. apply map_M_validation_log.
Qed.

Lemma create_item_log (py : Pydantic) (st : Store) (d : Item.t) :
  snd (create_item_in_supabase py st d []) = [CallInsert "items" (Item.dict d)].
Proof.
  unfold create_item_in_supabase, bind, table_insert, execute. simpl.
  destruct (st_insert st "items" (Item.dict d)) as [|[|r rs]]; try reflexivity.
  unfold of_validation. destruct (Item.validate py r); reflexivity.
Qed.

Lemma create_user_log (py : Pydantic) (st : Store) (u : User.t) :
  snd (create_user_in_supabase py st u []) = [CallInsert "users" (User.dict u)].
Proof.
  unfold create_user_in_supabase, bind, table_insert, execute. simpl.
  destruct (st_insert st "users" (User.dict u)) as [|[|r rs]]; try reflexivity.
  unfold of_validation. destruct (User.validate py r); reflexivity.
Qed.

Lemma JSONResponse_log (c : Z) (v : pyval) (l : list call) : snd (JSONResponse c v l) = l.
Proof. unfold JSONResponse. destruct (json_encodable v); reflexivity. Qed.

Lemma bind_json_log {A} (m : M A) (c : Z) (f : A -> pyval) (l : list call) :
  snd ((x <- m ;; JSONResponse c (f x)) l) = snd (m l).
Proof.
  unfold bind. destruct (m l) as [[e|a] l']; [reflexivity|]. apply JSONResponse_log.
Qed.

Lemma handle_log (py : Pydantic) (st : Store) (e : Endpoint) (req : Request) :
  snd (handle py st e req []) = [] \/
  (exists t, snd (handle py st e req []) = [CallSelect t]) \/
  (exists t p, snd (handle py st e req []) = [CallInsert t p] /\
               (e = CreateItem \/ e = CreateUser)).
Proof.
  destruct e; simpl; try (left; reflexivity).
  - right; left. exists "items". rewrite bind_json_log. apply get_items_log.
  - destruct (body_as (Item.validate py) (body req)) as [errs|d]; [left; reflexivity|].
    right; right. exists "items", (Item.dict d). split; [|left; reflexivity].
    rewrite bind_json_log. apply create_item_log.
  - right; left. exists "users". rewrite bind_json_log. apply get_users_log.
  - destruct (body_as (User.validate py) (body req)) as [errs|u]; [left; reflexivity|].
    right; right. exists "users", (User.dict u). split; [|right; reflexivity].
    rewrite bind_json_log. apply create_user_log.
Qed.

Lemma find_full_create_post (m p : string) :
  find_full m p routes = Some CreateItem \/ find_full m p routes = Some CreateUser -> m = "POST".
Proof.
  intros H. unfold routes in H. cbn [find_full existsb andb orb fst snd] in H.
  repeat match type of H with
         | context [String.eqb ?a ?b] =>
             destruct (String.eqb a b) eqn:?; cbn [andb orb] in H
         end;
    destruct H as [H|H]; try discriminate H; apply String.eqb_eq; assumption.
Qed.

Lemma app_log (py : Pydantic) (st : Store) (req : Request) (l : list call) :
  snd (app py st req l) = snd (router py st req l).
Proof.
  unfold app, try_except, not_found_middleware, bind, exception_middleware, try_except.
  destruct (router py st req l) as [[e|r] l'].
  - destruct e; try reflexivity; cbn -[json_encodable];
      unfold JSONResponse; destruct (json_encodable _); cbn;
      try destruct (_ =? HTTP_404_NOT_FOUND); reflexivity.
  - cbn. destruct (_ =? HTTP_404_NOT_FOUND); reflexivity.
Qed.

(** Every request makes at most one call to the store, and only a POST
    request ever inserts. *)
Theorem at_most_one_store_call (py : Pydantic) (st : Store) (req : Request) :
  (length (snd (app py st req [])) <= 1)%nat /\
  (forall t p, In (CallInsert t p) (snd (app py st req [])) -> method req = "POST").
Proof.
  rewrite app_log. unfold router.
  destruct (find_full (method req) (path req) routes) as [e|] eqn:Hf.
  - destruct (handle_log py st e req) as [H|[[t H]|[t [p [H He]]]]]; rewrite H; split;
      simpl; try lia; intros t' p' Hin; destruct Hin as [Hin|[]]; try discriminate Hin.
    apply (find_full_create_post (method req) (path req)).
    destruct He; subst; auto.
  - destruct (path_matched (path req) routes); [split; simpl; [lia | intros ? ? []]|].
    destruct (negb (String.eqb (path req) "/") && path_matched (redirect_path (path req)) routes);
      split; simpl; try lia; intros ? ? [].
Qed.
